(** * vpc-nag: compliance audit of a VPC inventory

    A shallow embedding of [main.go] and the properties of its account
    filter, its compliance evaluator and its reporter.

    Go strings are byte sequences compared byte by byte; they are modelled
    by [string] (a list of 8-bit [ascii]).  [int] and [int64] are modelled
    by [Z]; a slice is a [list] and [len] is the length as a [Z] (a slice
    length never reaches the bound of [int]).  [map[string]string] is a
    [gmap string string]. *)

From Stdlib Require Import ZArith Ascii String DecimalString.
From stdpp Require Import base list strings gmap.

Local Open Scope string_scope.
Local Open Scope Z_scope.
Local Open Scope list_scope.

(** String concatenation computes on literals in the proofs below. *)
#[local] Arguments String.append !s1 s2 / : simpl nomatch.

(** ** Data model *)

Module Subnet.
Record PrismSubnet := {
  AvailabilityZone : string;
  AvailableIPAddressCount : Z;
  CapacityIPAddressCount : Z;
  CidrBlock : string;
  OwnerID : string;
  State : string;
  SubnetArn : string;
  SubnetID : string;
  IsPublic : bool
}.
End Subnet.
Abbreviation PrismSubnet := Subnet.PrismSubnet.

Module VPC.
Record MetaOrigin := { Region : string }.
Record VPCMeta := { Origin : MetaOrigin }.
Record PrismVPC := {
  VPCID : string;
  AccountID : string;
  State : string;
  IsDefault : bool;
  Subnets : list PrismSubnet;
  Tags : gmap string string;
  Meta : VPCMeta
}.
End VPC.
Abbreviation PrismVPC := VPC.PrismVPC.

Record PrismData := { VPCs : list PrismVPC }.
Record PrismResponse := { Data : PrismData }.

(** [vpc.Meta.Origin.Region] *)
Definition region (vpc : PrismVPC) : string :=
  VPC.Region (VPC.Origin (VPC.Meta vpc)).

(** ** Errors and formatting ([errors], [fmt]) *)

(** A Go [error] is observed through its [Error()] text only. *)
Record error := { Error : string }.

Definition errors_New (text : string) : error := {| Error := text |}.

(** Operands passed to the [fmt] functions by this program. *)
Inductive value :=
| VString (s : string)
| VInt (n : Z)
| VError (e : error).

(** Decimal rendering of an integer, as [%d] prints it. *)
Definition itoa (n : Z) : string := NilEmpty.string_of_int (Z.to_int n).

(** Name of the dynamic type, as [fmt] prints it in its diagnostics. *)
Definition type_name (v : value) : string :=
  match v with
  | VString _ => "string"
  | VInt _ => "int"
  | VError _ => "*errors.errorString"
  end.

(** The default ([%v]) rendering of an operand. *)
Definition format_v (v : value) : string :=
  match v with
  | VString s => s
  | VInt n => itoa n
  | VError e => Error e
  end.

(** Rendering of one operand under a verb given without flags, width or
    precision: [%v] on any operand, [%s] on a string or an error, [%d] on
    an integer.  These are the only combinations this program uses; any
    other one is rendered as a diagnostic of the form
    [%!verb(type=value)]. *)
Definition format_verb (verb : ascii) (v : value) : string :=
  let bad := "%!" +:+ String verb ("(" +:+ type_name v +:+ "=" +:+ format_v v +:+ ")") in
  match verb, v with
  | "v"%char, _ => format_v v
  | "s"%char, VString s => s
  | "s"%char, VError e => Error e
  | "d"%char, VInt n => itoa n
  | _, _ => bad
  end.

Fixpoint format_extra (args : list value) : string :=
  match args with
  | [] => ""
  | [v] => type_name v +:+ "=" +:+ format_v v
  | v :: rest => type_name v +:+ "=" +:+ format_v v +:+ ", " +:+ format_extra rest
  end.

(** [fmt.Sprintf] on format strings whose verbs carry no flags, width or
    precision (all the format strings of this program are of that kind). *)
Fixpoint Sprintf (format : string) (args : list value) : string :=
  match format with
  | EmptyString =>
      match args with
      | [] => ""
      | _ => "%!(EXTRA " +:+ format_extra args +:+ ")"
      end
  | String "%" EmptyString => "%!(NOVERB)"
  | String "%" (String "%" rest) => String "%" (Sprintf rest args)
  | String "%" (String verb rest) =>
      match args with
      | [] => "%!" +:+ String verb "(MISSING)" +:+ Sprintf rest []
      | v :: args' => format_verb verb v +:+ Sprintf rest args'
      end
  | String c rest => String c (Sprintf rest args)
  end.

(** [fmt.Sprintln]: operands in their default format, separated by
    spaces, followed by a newline. *)
Fixpoint Sprint_spaced (args : list value) : string :=
  match args with
  | [] => ""
  | [v] => format_v v
  | v :: rest => format_v v +:+ " " +:+ Sprint_spaced rest
  end.

Definition newline : string := String "010" EmptyString.

Definition Sprintln (args : list value) : string :=
  Sprint_spaced args +:+ newline.

Definition fmt_Errorf (format : string) (args : list value) : error :=
  errors_New (Sprintf format args).

(** [len] of a slice. *)
Definition len {A} (items : list A) : Z := Z.of_nat (length items).

(** ** The generic filter *)

(** [Filter] walks [items] from the front and appends each item that
    satisfies [pred] to [out], which starts out empty. *)
Definition Filter {A} (items : list A) (pred : A -> bool) : list A :=
  foldl (fun out item => if pred item then out ++ [item] else out) [] items.

(** ** The compliance evaluator *)

(** The two groups of subnets [checkCompliance] counts. *)
Definition publicSubnets (vpc : PrismVPC) : list PrismSubnet :=
  Filter (VPC.Subnets vpc) (fun subnet => Subnet.IsPublic subnet).

Definition privateSubnets (vpc : PrismVPC) : list PrismSubnet :=
  Filter (VPC.Subnets vpc) (fun subnet => negb (Subnet.IsPublic subnet)).

Definition checkCompliance (vpc : PrismVPC) : list error :=
  let errs := [] in
  if negb (region vpc =? "eu-west-1")%string then errs
  else if VPC.IsDefault vpc then errs ++ [errors_New "is Default VPC"]
  else
    let publicSubnets := publicSubnets vpc in
    let privateSubnets := privateSubnets vpc in
    let errs :=
      if negb (len publicSubnets =? 3)
      then errs ++ [fmt_Errorf "expected 3 public subnets, found %d" [VInt (len publicSubnets)]]
      else errs in
    let errs :=
      if negb (len privateSubnets =? 3)
      then errs ++ [fmt_Errorf "expected 3 private subnets, found %d" [VInt (len privateSubnets)]]
      else errs in
    errs.

(** ** The process: standard output, standard error, exit status *)

(** One call of a [fmt] printing function on standard output. *)
Inductive write :=
| WPrintf (format : string) (args : list value)
| WPrintln (args : list value).

(** The bytes a call puts on standard output. *)
Definition text (w : write) : string :=
  match w with
  | WPrintf format args => Sprintf format args
  | WPrintln args => Sprintln args
  end.

Record Console := {
  Stdout : list write;
  Stderr : list string
}.

Definition console0 : Console := {| Stdout := []; Stderr := [] |}.

(** A computation either goes on with a value or has ended the process
    with an exit status. *)
Inductive outcome (A : Type) :=
| Done (a : A)
| Exit (status : Z).
Arguments Done {A} a.
Arguments Exit {A} status.

Definition M (A : Type) : Type := Console -> Console * outcome A.

Definition ret {A} (a : A) : M A := fun c => (c, Done a).

Definition bind {A B} (m : M A) (k : A -> M B) : M B :=
  fun c =>
    match m c with
    | (c', Done a) => k a c'
    | (c', Exit status) => (c', Exit status)
    end.

Notation "x <- m ;; k" := (bind m (fun x => k))
  (at level 100, m at next level, right associativity).
Notation "m ;; k" := (bind m (fun _ => k))
  (at level 100, right associativity).

(** [for _, x := range items { body }] *)
Fixpoint for_range {A} (items : list A) (body : A -> M unit) : M unit :=
  match items with
  | [] => ret tt
  | x :: rest => body x ;; for_range rest body
  end.

Definition put (w : write) : M unit :=
  fun c => ({| Stdout := Stdout c ++ [w]; Stderr := Stderr c |}, Done tt).

Definition fmt_Printf (format : string) (args : list value) : M unit :=
  put (WPrintf format args).

Definition fmt_Println (args : list value) : M unit :=
  put (WPrintln args).

Definition os_Exit {A} (status : Z) : M A := fun c => (c, Exit status).

(** What the process finds outside itself. *)
Inductive result (A : Type) :=
| Ok (a : A)
| Failed (err : error).
Arguments Ok {A} a.
Arguments Failed {A} err.

(** An HTTP response; its body is given by what reading it to the end
    yields. *)
Record Response := { Body : result (list Byte.byte) }.

Record World := {
  (** the value given to [-accountID] on a command line that [flag.Parse]
      accepts, if the flag is given *)
  arg_accountID : option string;
  http_Get : string -> result Response;
  json_Unmarshal : list Byte.byte -> result PrismResponse;
  (** the date and time header the standard logger puts before a message *)
  log_header : string
}.

Definition flag_String (w : World) (name default : string) : string :=
  match arg_accountID w with
  | Some v => v
  | None => default
  end.

Definition io_ReadAll (body : result (list Byte.byte)) : result (list Byte.byte) := body.

Definition ends_with_newline (s : string) : bool :=
  match String.length s with
  | O => false
  | S n => (String.substring n 1 s =? newline)%string
  end.

(** [log.Fatalf]: the header and the formatted message, ended by a newline,
    go to standard error; then the process exits with status 1. *)
Definition log_Fatalf {A} (w : World) (format : string) (args : list value) : M A :=
  fun c =>
    let msg := Sprintf format args in
    let line := log_header w +:+ msg +:+ (if ends_with_newline msg then "" else newline) in
    os_Exit 1 {| Stdout := Stdout c; Stderr := Stderr c ++ [line] |}.

(** A Go call returning [(x, err)] followed by [check(err, msg)]: with
    [err != nil] the call is [Failed err] and [check] ends the process;
    otherwise [check] returns and [x] is used. *)
Definition check {A} (w : World) (r : result A) (msg : string) : M A :=
  match r with
  | Failed err => log_Fatalf w "%s: %v" [VString msg; VError err]
  | Ok x => ret x
  end.

(** ** The reporter *)

Definition reportCompliance (vpc : PrismVPC) (errors : list error) : M unit :=
  fmt_Printf ("Failed: %s (%s)" +:+ newline) [VString (VPC.VPCID vpc); VString (region vpc)] ;;
  for_range errors (fun err => fmt_Printf (String "009" "%s" +:+ newline) [VError err]) ;;
  fmt_Println [].

(** ** The program *)

(** The body of the loop over [accountVPCs]. *)
Definition audit (accountID : string) (vpc : PrismVPC) : M unit :=
  if negb (VPC.AccountID vpc =? accountID)%string then ret tt
  else
    let complianceErrs := checkCompliance vpc in
    if 0 <? len complianceErrs then reportCompliance vpc complianceErrs else ret tt.

(** The predicate [main] filters the inventory with. *)
Definition sameAccount (accountID : string) (vpc : PrismVPC) : bool :=
  (VPC.AccountID vpc =? accountID)%string.

Definition accountVPCs (accountID : string) (prismResponse : PrismResponse) : list PrismVPC :=
  Filter (VPCs (Data prismResponse)) (sameAccount accountID).

Definition nonEuWest1 (vpcs : list PrismVPC) : list PrismVPC :=
  Filter vpcs (fun vpc => negb (region vpc =? "eu-west-1")%string).

Definition main (w : World) : M unit :=
  let accountID := flag_String w "accountID" "" in
  (if (accountID =? "")%string
   then fmt_Println [VString "Missing required argument: accountID"]
   else ret tt) ;;
  resp <- check w (http_Get w "https://prism.gutools.co.uk/vpcs") "GET from PRISM failed" ;;
  data <- check w (io_ReadAll (Body resp)) "unable to read prism response body" ;;
  prismResponse <- check w (json_Unmarshal w data) "unable to unmarshal" ;;
  let accountVPCs := accountVPCs accountID prismResponse in
  for_range accountVPCs (audit accountID) ;;
  let nonEuWest1 := nonEuWest1 accountVPCs in
  if 0 <? len nonEuWest1
  then
    fmt_Printf ("The following VPCs were ignored as are in non-standard regions:" +:+ newline) [] ;;
    for_range nonEuWest1 (fun vpc =>
      fmt_Printf (String "009" "%s (%s)" +:+ newline) [VString (VPC.VPCID vpc); VString (region vpc)])
  else ret tt.

(** Running the program: what it wrote and its exit status (0 when [main]
    returns). *)
Definition exec (w : World) : Console * Z :=
  match main w console0 with
  | (c, Done _) => (c, 0)
  | (c, Exit status) => (c, status)
  end.

(** ** Sample data *)

Definition sample_subnet (isPublic : bool) : PrismSubnet :=
  {| Subnet.AvailabilityZone := "eu-west-1a";
     Subnet.AvailableIPAddressCount := 250;
     Subnet.CapacityIPAddressCount := 256;
     Subnet.CidrBlock := "10.0.0.0/24";
     Subnet.OwnerID := "111";
     Subnet.State := "available";
     Subnet.SubnetArn := "";
     Subnet.SubnetID := "subnet-1";
     Subnet.IsPublic := isPublic |}.

Definition sample_vpc (id account reg : string) (isDefault : bool)
    (subnets : list PrismSubnet) : PrismVPC :=
  {| VPC.VPCID := id;
     VPC.AccountID := account;
     VPC.State := "available";
     VPC.IsDefault := isDefault;
     VPC.Subnets := subnets;
     VPC.Tags := ∅;
     VPC.Meta := {| VPC.Origin := {| VPC.Region := reg |} |} |}.

Definition subnets_3_3 : list PrismSubnet :=
  [sample_subnet true; sample_subnet false; sample_subnet true;
   sample_subnet false; sample_subnet true; sample_subnet false].

Definition subnets_2_3 : list PrismSubnet :=
  [sample_subnet true; sample_subnet false; sample_subnet true;
   sample_subnet false; sample_subnet false].

(** The VPCs of scenarios A to D. *)
Definition vpc_1 : PrismVPC := sample_vpc "vpc-1" "111" "eu-west-1" false subnets_3_3.
Definition vpc_2 : PrismVPC := sample_vpc "vpc-2" "111" "eu-west-1" true [].
Definition vpc_3 : PrismVPC := sample_vpc "vpc-3" "111" "eu-west-1" false subnets_2_3.
Definition vpc_4 : PrismVPC := sample_vpc "vpc-4" "111" "us-east-1" false [].
Definition vpc_other : PrismVPC := sample_vpc "vpc-5" "222" "eu-west-1" true [].

Definition sample_inventory : PrismResponse :=
  {| Data := {| VPCs := [vpc_1; vpc_2; vpc_other; vpc_3; vpc_4] |} |}.

(** A world whose inventory service answers with [sample_inventory]
    whatever the bytes, and one whose answer does not decode. *)
Definition sample_world (arg : option string) : World :=
  {| arg_accountID := arg;
     http_Get := fun _ => Ok {| Body := Ok [] |};
     json_Unmarshal := fun _ => Ok sample_inventory;
     log_header := "2024/01/02 03:04:05 " |}.

Definition undecodable_world (arg : option string) : World :=
  {| arg_accountID := arg;
     http_Get := fun _ => Ok {| Body := Ok [Byte.x7b] |};
     json_Unmarshal := fun _ => Failed (errors_New "unexpected end of JSON input");
     log_header := "2024/01/02 03:04:05 " |}.

(** ** Vocabulary of the statements *)

(** Number of subnets whose public flag is [isPublic]. *)
Definition subnet_count (isPublic : bool) (subnets : list PrismSubnet) : nat :=
  length (filter (λ subnet, Subnet.IsPublic subnet = isPublic) subnets).

(** The reason [checkCompliance] gives for a wrong number of subnets. *)
Definition count_violation (kind : string) (found : nat) : error :=
  errors_New ("expected 3 " +:+ kind +:+ " subnets, found " +:+ itoa (Z.of_nat found)).

(** ** What the program writes *)

(** [emits m ws]: from any console, [m] appends the writes [ws] to
    standard output, leaves standard error alone and goes on. *)
Definition emits (m : M unit) (ws : list write) : Prop :=
  ∀ c, m c = ({| Stdout := Stdout c ++ ws; Stderr := Stderr c |}, Done tt).

(** The block [reportCompliance] prints for a VPC. *)
Definition failed_block (vpc : PrismVPC) (errors : list error) : list write :=
  WPrintf ("Failed: %s (%s)" +:+ newline) [VString (VPC.VPCID vpc); VString (region vpc)]
  :: ((λ err, WPrintf (String "009" "%s" +:+ newline) [VError err]) <$> errors)
  ++ [WPrintln []].

(** The writes of one round of the loop over the account's VPCs. *)
Definition audit_writes (accountID : string) (vpc : PrismVPC) : list write :=
  if decide (VPC.AccountID vpc = accountID ∧ checkCompliance vpc ≠ [])
  then failed_block vpc (checkCompliance vpc)
  else [].

(** The report on the VPCs outside the canonical region. *)
Definition ignored_writes (vpcs : list PrismVPC) : list write :=
  match vpcs with
  | [] => []
  | _ =>
      WPrintf ("The following VPCs were ignored as are in non-standard regions:" +:+ newline) []
      :: ((λ vpc, WPrintf (String "009" "%s (%s)" +:+ newline)
                    [VString (VPC.VPCID vpc); VString (region vpc)]) <$> vpcs)
  end.

Definition warning_writes (accountID : string) : list write :=
  if decide (accountID = "")
  then [WPrintln [VString "Missing required argument: accountID"]]
  else [].

(** The line [check] leaves on standard error for a failed step. *)
Definition fatal_line (w : World) (msg : string) (err : error) : string :=
  log_header w +:+ (msg +:+ ": " +:+ Error err)
  +:+ (if ends_with_newline (msg +:+ ": " +:+ Error err) then "" else newline).

(** The bytes a sequence of writes puts on standard output. *)
Definition output (ws : list write) : string :=
  foldr (λ w rest, text w +:+ rest) "" ws.

(** The VPC id shown by a write, when the write is the header line of a
    failed VPC. *)
Definition header_id (wr : write) : option string :=
  match wr with
  | WPrintf format [VString id; VString _] =>
      if decide (format = "Failed: %s (%s)" +:+ newline) then Some id else None
  | _ => None
  end.

(** The write that warns about a missing account id. *)
Definition warning : write := WPrintln [VString "Missing required argument: accountID"].

(** ** The generic filter: proofs *)

Section FilterFacts.
Context {A : Type} (P : A → Prop) `{!∀ x, Decision (P x)}.
Variable pred : A → bool.
Hypothesis pred_spec : ∀ x, pred x = true ↔ P x.

Lemma Filter_loop (items out : list A) :
  foldl (fun out item => if pred item then out ++ [item] else out) out items
  = out ++ filter P items.
Proof.
  revert out. induction items as [|item items IH]; intros out; cbn [foldl].
  - by rewrite filter_nil, app_nil_r.
  - rewrite IH, filter_cons. destruct (pred item) eqn:Hp.
    + apply pred_spec in Hp. rewrite decide_True by done.
      by rewrite <- app_assoc.
    + rewrite decide_False; [done|].
      intros HP. apply pred_spec in HP. congruence.
Qed.

Lemma Filter_filter (items : list A) : Filter items pred = filter P items.
Proof. unfold Filter. by rewrite Filter_loop. Qed.

End FilterFacts.

Lemma sameAccount_spec (accountID : string) (vpc : PrismVPC) :
  sameAccount accountID vpc = true ↔ VPC.AccountID vpc = accountID.
Proof. unfold sameAccount. apply String.eqb_eq. Qed.

Lemma outside_spec (vpc : PrismVPC) :
  negb (region vpc =? "eu-west-1")%string = true ↔ region vpc ≠ "eu-west-1".
Proof. rewrite negb_true_iff. apply String.eqb_neq. Qed.

Lemma isPublic_spec (b : bool) (subnet : PrismSubnet) :
  (if b then Subnet.IsPublic subnet else negb (Subnet.IsPublic subnet)) = true
  ↔ Subnet.IsPublic subnet = b.
Proof. destruct b, (Subnet.IsPublic subnet); naive_solver. Qed.

Lemma publicSubnets_filter (vpc : PrismVPC) :
  publicSubnets vpc = filter (λ subnet, Subnet.IsPublic subnet = true) (VPC.Subnets vpc).
Proof. apply Filter_filter. intros subnet. apply (isPublic_spec true). Qed.

Lemma privateSubnets_filter (vpc : PrismVPC) :
  privateSubnets vpc = filter (λ subnet, Subnet.IsPublic subnet = false) (VPC.Subnets vpc).
Proof. apply Filter_filter. intros subnet. apply (isPublic_spec false). Qed.

Lemma accountVPCs_filter (accountID : string) (prismResponse : PrismResponse) :
  accountVPCs accountID prismResponse
  = filter (λ vpc, VPC.AccountID vpc = accountID) (VPCs (Data prismResponse)).
Proof. apply Filter_filter, sameAccount_spec. Qed.

Lemma nonEuWest1_filter (vpcs : list PrismVPC) :
  nonEuWest1 vpcs = filter (λ vpc, region vpc ≠ "eu-west-1") vpcs.
Proof. apply Filter_filter, outside_spec. Qed.

(** C4: filtering a VPC sequence by an account identifier gives exactly
    the VPCs whose account id is equal (as a byte string) to the
    identifier, in their order in the sequence, and filtering the result
    again by the same identifier changes nothing. *)
Theorem Filter_by_account (vpcs : list PrismVPC) (X : string) :
  Filter vpcs (sameAccount X) = filter (λ vpc, VPC.AccountID vpc = X) vpcs
  ∧ sublist (Filter vpcs (sameAccount X)) vpcs
  ∧ (∀ vpc, vpc ∈ Filter vpcs (sameAccount X) ↔ vpc ∈ vpcs ∧ VPC.AccountID vpc = X)
  ∧ Filter (Filter vpcs (sameAccount X)) (sameAccount X) = Filter vpcs (sameAccount X).
Proof.
  pose proof (Filter_filter _ _ (sameAccount_spec X)) as E.
  rewrite !E. split_and!.
  - done.
  - apply sublist_filter.
  - intros vpc. rewrite list_elem_of_filter. tauto.
  - rewrite list_filter_filter. apply list_filter_iff. tauto.
Qed.

(** Equality of account ids distinguishes letter case. *)
Example Filter_by_account_case :
  Filter [sample_vpc "vpc-a" "abc" "eu-west-1" false [];
          sample_vpc "vpc-b" "ABC" "eu-west-1" false []] (sameAccount "abc")
  = [sample_vpc "vpc-a" "abc" "eu-west-1" false []].
Proof. reflexivity. Qed.

(** C6: the public flag splits the subnets of a VPC into two groups with
    no subnet in both, which together are the subnets of the VPC; their
    sizes add up to the number of subnets. *)
Theorem subnets_partition (vpc : PrismVPC) :
  (length (publicSubnets vpc) + length (privateSubnets vpc) = length (VPC.Subnets vpc))%nat
  ∧ (∀ subnet, subnet ∈ publicSubnets vpc
       ↔ subnet ∈ VPC.Subnets vpc ∧ Subnet.IsPublic subnet = true)
  ∧ (∀ subnet, subnet ∈ privateSubnets vpc
       ↔ subnet ∈ VPC.Subnets vpc ∧ Subnet.IsPublic subnet = false)
  ∧ (∀ subnet, ¬ (subnet ∈ publicSubnets vpc ∧ subnet ∈ privateSubnets vpc))
  ∧ publicSubnets vpc ++ privateSubnets vpc ≡ₚ VPC.Subnets vpc.
Proof.
  rewrite publicSubnets_filter, privateSubnets_filter.
  assert (filter (λ subnet, Subnet.IsPublic subnet = true) (VPC.Subnets vpc)
          ++ filter (λ subnet, Subnet.IsPublic subnet = false) (VPC.Subnets vpc)
          ≡ₚ VPC.Subnets vpc) as Hperm.
  { rewrite (list_filter_iff (λ subnet, Subnet.IsPublic subnet = false)
               (λ subnet, Subnet.IsPublic subnet ≠ true)).
    - apply filter_app_complement.
    - intros subnet. destruct (Subnet.IsPublic subnet); naive_solver. }
  split_and!.
  - rewrite <- length_app. by rewrite Hperm.
  - intros subnet. rewrite list_elem_of_filter. tauto.
  - intros subnet. rewrite list_elem_of_filter. tauto.
  - intros subnet. rewrite !list_elem_of_filter. intros [[-> _] [? _]]. done.
  - done.
Qed.

(** ** The compliance evaluator: proofs *)

(** [itoa] writes integers in decimal. *)
Example itoa_samples :
  itoa 0 = "0" ∧ itoa 2 = "2" ∧ itoa 3 = "3" ∧ itoa 10 = "10" ∧ itoa 1204 = "1204"
  ∧ itoa (-7) = "-7".
Proof. repeat split. Qed.

Lemma string_app_empty_r (s : string) : s +:+ "" = s.
Proof. induction s as [|c s IH]; [done|]. cbn. by rewrite IH. Qed.

Lemma Errorf_public (n : nat) :
  fmt_Errorf "expected 3 public subnets, found %d" [VInt (Z.of_nat n)]
  = count_violation "public" n.
Proof.
  unfold fmt_Errorf, count_violation. f_equal.
  cbn -[itoa]. by rewrite string_app_empty_r.
Qed.

Lemma Errorf_private (n : nat) :
  fmt_Errorf "expected 3 private subnets, found %d" [VInt (Z.of_nat n)]
  = count_violation "private" n.
Proof.
  unfold fmt_Errorf, count_violation. f_equal.
  cbn -[itoa]. by rewrite string_app_empty_r.
Qed.

Lemma len_publicSubnets (vpc : PrismVPC) :
  len (publicSubnets vpc) = Z.of_nat (subnet_count true (VPC.Subnets vpc)).
Proof. unfold len, subnet_count. by rewrite publicSubnets_filter. Qed.

Lemma len_privateSubnets (vpc : PrismVPC) :
  len (privateSubnets vpc) = Z.of_nat (subnet_count false (VPC.Subnets vpc)).
Proof. unfold len, subnet_count. by rewrite privateSubnets_filter. Qed.

Lemma not_three (n : nat) :
  negb (Z.of_nat n =? 3) = if decide (n = 3%nat) then false else true.
Proof.
  case_decide as Hn.
  - by rewrite Hn.
  - apply negb_true_iff, Z.eqb_neq. lia.
Qed.

(** The result of [checkCompliance] for a VPC of the canonical region
    that is not a default VPC. *)
Lemma checkCompliance_subnets (vpc : PrismVPC) :
  region vpc = "eu-west-1" → VPC.IsDefault vpc = false →
  checkCompliance vpc
  = (if decide (subnet_count true (VPC.Subnets vpc) = 3%nat) then []
     else [count_violation "public" (subnet_count true (VPC.Subnets vpc))])
    ++ (if decide (subnet_count false (VPC.Subnets vpc) = 3%nat) then []
        else [count_violation "private" (subnet_count false (VPC.Subnets vpc))]).
Proof.
  intros Hregion Hdefault. unfold checkCompliance.
  rewrite Hregion, Hdefault. cbn [String.eqb Ascii.eqb Bool.eqb negb].
  cbv zeta. rewrite len_publicSubnets, len_privateSubnets, !not_three.
  rewrite Errorf_public, Errorf_private.
  by repeat case_decide.
Qed.

(** C1: for a VPC of region "eu-west-1" that is not a default VPC, the
    number of violations is one for a public count other than 3 plus one
    for a private count other than 3; there is none exactly when both
    counts are 3; the violation for the public count comes before the one
    for the private count, and each reads "expected 3 ... subnets, found"
    followed by the count found. *)
Theorem checkCompliance_counts (vpc : PrismVPC) :
  region vpc = "eu-west-1" → VPC.IsDefault vpc = false →
  length (checkCompliance vpc)
  = ((if decide (subnet_count true (VPC.Subnets vpc) ≠ 3%nat) then 1 else 0)
     + (if decide (subnet_count false (VPC.Subnets vpc) ≠ 3%nat) then 1 else 0))%nat
  ∧ (checkCompliance vpc = []
     ↔ subnet_count true (VPC.Subnets vpc) = 3%nat
       ∧ subnet_count false (VPC.Subnets vpc) = 3%nat)
  ∧ checkCompliance vpc
    = (if decide (subnet_count true (VPC.Subnets vpc) ≠ 3%nat)
       then [errors_New ("expected 3 public subnets, found "
                         +:+ itoa (Z.of_nat (subnet_count true (VPC.Subnets vpc))))]
       else [])
      ++ (if decide (subnet_count false (VPC.Subnets vpc) ≠ 3%nat)
          then [errors_New ("expected 3 private subnets, found "
                            +:+ itoa (Z.of_nat (subnet_count false (VPC.Subnets vpc))))]
          else []).
Proof.
  intros Hregion Hdefault.
  rewrite (checkCompliance_subnets vpc Hregion Hdefault).
  repeat case_decide; try done; cbn; split_and!; try done;
    (split; [intros Hnil | intros [Hpub Hpriv]]; by simplify_eq).
Qed.

Lemma checkCompliance_counts_witness :
  length (checkCompliance vpc_3) = 1%nat
  ∧ checkCompliance vpc_3 = [errors_New "expected 3 public subnets, found 2"].
Proof.
  destruct (checkCompliance_counts vpc_3) as (Hlen & _ & Hshape);
    [reflexivity | reflexivity |].
  split; [exact Hlen | exact Hshape].
Defined.

(** C2: a VPC whose region is not "eu-west-1" has no violation, whatever
    its default flag and its subnets. *)
Theorem checkCompliance_other_region (vpc : PrismVPC) :
  region vpc ≠ "eu-west-1" → checkCompliance vpc = [].
Proof.
  intros Hregion. unfold checkCompliance.
  apply outside_spec in Hregion. by rewrite Hregion.
Qed.

Lemma checkCompliance_other_region_witness :
  checkCompliance (sample_vpc "vpc-9" "111" "us-east-1" true subnets_2_3) = [].
Proof. apply checkCompliance_other_region. vm_compute. discriminate. Defined.

(** C3: a default VPC of region "eu-west-1" has exactly one violation,
    "is Default VPC", whatever its subnets. *)
Theorem checkCompliance_default (vpc : PrismVPC) :
  region vpc = "eu-west-1" → VPC.IsDefault vpc = true →
  checkCompliance vpc = [errors_New "is Default VPC"].
Proof.
  intros Hregion Hdefault. unfold checkCompliance.
  by rewrite Hregion, Hdefault.
Qed.

Lemma checkCompliance_default_witness :
  checkCompliance (sample_vpc "vpc-9" "111" "eu-west-1" true subnets_2_3)
  = [errors_New "is Default VPC"].
Proof. apply checkCompliance_default; reflexivity. Defined.

(** C9: [checkCompliance] never returns more than two violations. *)
Theorem checkCompliance_at_most_two (vpc : PrismVPC) :
  (length (checkCompliance vpc) ≤ 2)%nat.
Proof.
  unfold checkCompliance.
  repeat match goal with |- context [if ?b then _ else _] => destruct b end;
    cbn; lia.
Qed.

(** ** What the program writes: proofs *)

Lemma emits_ret : emits (ret tt) [].
Proof. intros [out err]. unfold ret. cbn. by rewrite app_nil_r. Qed.

Lemma emits_put (w : write) : emits (put w) [w].
Proof. by intros c. Qed.

Lemma emits_seq (m k : M unit) (ws1 ws2 : list write) :
  emits m ws1 → emits k ws2 → emits (m ;; k) (ws1 ++ ws2).
Proof.
  intros Hm Hk c. unfold bind. rewrite Hm, Hk. cbn. by rewrite app_assoc.
Qed.

Lemma emits_for_range {A} (items : list A) (body : A → M unit)
    (f : A → list write) :
  (∀ x, emits (body x) (f x)) → emits (for_range items body) (items ≫= f).
Proof.
  intros Hbody. induction items as [|x items IH]; cbn [for_range].
  - apply emits_ret.
  - rewrite bind_cons. by apply emits_seq.
Qed.

Lemma emits_reportCompliance (vpc : PrismVPC) (errors : list error) :
  emits (reportCompliance vpc errors) (failed_block vpc errors).
Proof.
  unfold reportCompliance, failed_block.
  apply (emits_seq _ _ [_]); [apply emits_put|].
  apply emits_seq; [|apply emits_put].
  replace (_ <$> errors)
    with (errors ≫= λ err, [WPrintf (String "009" "%s" +:+ newline) [VError err]]).
  - apply emits_for_range. intros err. apply emits_put.
  - induction errors as [|err errors IH]; [done|].
    rewrite bind_cons, fmap_cons, IH. done.
Qed.

Lemma len_positive {A} (items : list A) :
  (0 <? len items) = if decide (items = []) then false else true.
Proof. destruct items; [done|]. unfold len. cbn [length]. case_decide; [done|]. apply Z.ltb_lt. lia. Qed.

Lemma emits_audit (accountID : string) (vpc : PrismVPC) :
  emits (audit accountID vpc) (audit_writes accountID vpc).
Proof.
  unfold audit, audit_writes.
  destruct (String.eqb_spec (VPC.AccountID vpc) accountID) as [Hacc|Hacc]; cbn [negb].
  - rewrite len_positive. destruct (decide (checkCompliance vpc = [])) as [Hnil|Hnil].
    + rewrite decide_False by (by intros [_ ?]). apply emits_ret.
    + rewrite decide_True by done. apply emits_reportCompliance.
  - rewrite decide_False by (by intros [? _]). apply emits_ret.
Qed.

Lemma emits_ignored (vpcs : list PrismVPC) :
  emits (if 0 <? len vpcs
         then
           fmt_Printf ("The following VPCs were ignored as are in non-standard regions:" +:+ newline) [] ;;
           for_range vpcs (fun vpc =>
             fmt_Printf (String "009" "%s (%s)" +:+ newline)
               [VString (VPC.VPCID vpc); VString (region vpc)])
         else ret tt)
        (ignored_writes vpcs).
Proof.
  rewrite len_positive. destruct vpcs as [|vpc vpcs]; [apply emits_ret|].
  rewrite decide_False by done. unfold ignored_writes.
  apply (emits_seq _ _ [_]); [apply emits_put|].
  replace (_ <$> vpc :: vpcs)
    with ((vpc :: vpcs) ≫= λ vpc, [WPrintf (String "009" "%s (%s)" +:+ newline)
                                     [VString (VPC.VPCID vpc); VString (region vpc)]]).
  - apply emits_for_range. intros x. apply emits_put.
  - generalize (vpc :: vpcs). intros l. induction l as [|x l IH]; [done|].
    rewrite bind_cons, fmap_cons, IH. done.
Qed.

Lemma emits_warning (accountID : string) :
  emits (if (accountID =? "")%string
         then fmt_Println [VString "Missing required argument: accountID"]
         else ret tt)
        (warning_writes accountID).
Proof.
  unfold warning_writes.
  destruct (String.eqb_spec accountID "") as [Hacc|Hacc].
  - rewrite decide_True by done. apply emits_put.
  - rewrite decide_False by done. apply emits_ret.
Qed.

Lemma Sprintf_check (msg : string) (err : error) :
  Sprintf "%s: %v" [VString msg; VError err] = msg +:+ ": " +:+ Error err.
Proof. cbn. by rewrite string_app_empty_r. Qed.

Lemma check_Failed {A} (w : World) (err : error) (msg : string) (c : Console) :
  check (A := A) w (Failed err) msg c
  = ({| Stdout := Stdout c; Stderr := Stderr c ++ [fatal_line w msg err] |}, Exit 1).
Proof.
  unfold check, log_Fatalf, fatal_line, os_Exit. by rewrite Sprintf_check.
Qed.

(** The run of [main] once the command line is read and the warning
    written. *)
Lemma main_run (w : World) :
  main w console0
  = let accountID := flag_String w "accountID" "" in
    match http_Get w "https://prism.gutools.co.uk/vpcs" with
    | Failed err =>
        ({| Stdout := warning_writes accountID;
            Stderr := [fatal_line w "GET from PRISM failed" err] |}, Exit 1)
    | Ok resp =>
        match Body resp with
        | Failed err =>
            ({| Stdout := warning_writes accountID;
                Stderr := [fatal_line w "unable to read prism response body" err] |}, Exit 1)
        | Ok data =>
            match json_Unmarshal w data with
            | Failed err =>
                ({| Stdout := warning_writes accountID;
                    Stderr := [fatal_line w "unable to unmarshal" err] |}, Exit 1)
            | Ok prismResponse =>
                ({| Stdout := warning_writes accountID
                      ++ (accountVPCs accountID prismResponse ≫= audit_writes accountID)
                      ++ ignored_writes (nonEuWest1 (accountVPCs accountID prismResponse));
                    Stderr := [] |}, Done tt)
            end
        end
    end.
Proof.
  cbv zeta. unfold main. cbv zeta. unfold bind at 1.
  rewrite emits_warning. cbn [Stdout Stderr console0 app].
  unfold bind at 1.
  destruct (http_Get w _) as [resp|err]; [|by rewrite check_Failed].
  cbn [check ret]. unfold bind at 1. unfold io_ReadAll.
  destruct (Body resp) as [data|err]; [|by rewrite check_Failed].
  cbn [check ret]. unfold bind at 1.
  destruct (json_Unmarshal w data) as [prismResponse|err]; [|by rewrite check_Failed].
  cbn [check ret]. unfold bind at 1.
  rewrite (emits_for_range _ _ _ (emits_audit _)). cbn [Stdout Stderr].
  rewrite emits_ignored. cbn [Stdout Stderr]. by rewrite <- app_assoc.
Qed.

Lemma exec_run (w : World) :
  exec w = (fst (main w console0),
            match snd (main w console0) with Done _ => 0 | Exit status => status end).
Proof. unfold exec. by destruct (main w console0) as [c [[]|status]]. Qed.

(** A VPC with a violation is in the canonical region. *)
Lemma checkCompliance_nonempty_region (vpc : PrismVPC) :
  checkCompliance vpc ≠ [] → region vpc = "eu-west-1".
Proof.
  unfold checkCompliance.
  destruct (String.eqb_spec (region vpc) "eu-west-1") as [Hregion|Hregion]; done.
Qed.

Lemma audit_writes_outside (accountID : string) (vpc : PrismVPC) :
  region vpc ≠ "eu-west-1" → audit_writes accountID vpc = [].
Proof.
  intros Hregion. unfold audit_writes.
  rewrite decide_False; [done|].
  intros [_ Herrs]. by apply checkCompliance_nonempty_region in Herrs.
Qed.

(** C5: no VPC is both reported as failed and listed as ignored. A VPC
    outside "eu-west-1" has no violation and its round of the loop prints
    nothing; the VPCs listed as ignored are exactly the VPCs of the
    account outside "eu-west-1", in order, each with its id and its
    region, after the blocks of the failed VPCs. *)
Theorem reports_consistent (w : World) (resp : Response)
    (data : list Byte.byte) (prismResponse : PrismResponse) (accountID : string) :
  flag_String w "accountID" "" = accountID →
  http_Get w "https://prism.gutools.co.uk/vpcs" = Ok resp →
  Body resp = Ok data →
  json_Unmarshal w data = Ok prismResponse →
  (∀ vpc, region vpc ≠ "eu-west-1" →
     checkCompliance vpc = [] ∧ emits (audit accountID vpc) [])
  ∧ nonEuWest1 (accountVPCs accountID prismResponse)
    = filter (λ vpc, region vpc ≠ "eu-west-1") (accountVPCs accountID prismResponse)
  ∧ Stdout (exec w).1
    = warning_writes accountID
      ++ (accountVPCs accountID prismResponse ≫= audit_writes accountID)
      ++ match filter (λ vpc, region vpc ≠ "eu-west-1") (accountVPCs accountID prismResponse) with
         | [] => []
         | ignored =>
             WPrintf ("The following VPCs were ignored as are in non-standard regions:" +:+ newline) []
             :: ((λ vpc, WPrintf (String "009" "%s (%s)" +:+ newline)
                           [VString (VPC.VPCID vpc); VString (region vpc)]) <$> ignored)
         end
  ∧ (∀ vpc, Sprintf (String "009" "%s (%s)" +:+ newline)
              [VString (VPC.VPCID vpc); VString (region vpc)]
            = String "009" (VPC.VPCID vpc +:+ " (" +:+ region vpc +:+ ")" +:+ newline))
  ∧ (∀ vpc, ¬ (audit_writes accountID vpc ≠ []
               ∧ vpc ∈ nonEuWest1 (accountVPCs accountID prismResponse))).
Proof.
  intros Hflag Hget Hbody Hjson. split_and!.
  - intros vpc Hregion. split.
    + destruct (checkCompliance vpc) eqn:Herrs; [done|].
      destruct Hregion. apply checkCompliance_nonempty_region. by rewrite Herrs.
    + rewrite <- (audit_writes_outside accountID vpc Hregion). apply emits_audit.
  - apply nonEuWest1_filter.
  - rewrite exec_run, main_run. cbv zeta.
    rewrite Hflag, Hget, Hbody, Hjson. cbn [fst Stdout].
    rewrite nonEuWest1_filter. unfold ignored_writes.
    by destruct (filter _ (accountVPCs accountID prismResponse)).
  - intros vpc. reflexivity.
  - intros vpc [Hblock Hin]. apply Hblock.
    rewrite nonEuWest1_filter in Hin. apply list_elem_of_filter in Hin as [Hregion _].
    by apply audit_writes_outside.
Qed.

Lemma reports_consistent_witness :
  Stdout (exec (sample_world (Some "111"))).1
  = failed_block vpc_2 [errors_New "is Default VPC"]
    ++ failed_block vpc_3 [errors_New "expected 3 public subnets, found 2"]
    ++ [WPrintf ("The following VPCs were ignored as are in non-standard regions:" +:+ newline) [];
        WPrintf (String "009" "%s (%s)" +:+ newline) [VString "vpc-4"; VString "us-east-1"]].
Proof.
  destruct (reports_consistent (sample_world (Some "111")) {| Body := Ok [] |} []
              sample_inventory "111" eq_refl eq_refl eq_refl eq_refl)
    as (_ & _ & Hout & _).
  rewrite Hout. vm_compute. reflexivity.
Defined.

Lemma string_app_assoc (s1 s2 s3 : string) : (s1 +:+ s2) +:+ s3 = s1 +:+ s2 +:+ s3.
Proof. induction s1 as [|c s1 IH]; [done|]. cbn. by rewrite IH. Qed.

(** C7: without an account identifier the program prints the warning
    "Missing required argument: accountID" first and goes on; when the
    inventory is fetched and decoded and no VPC in it has an empty
    account id, the account filter selects no VPC, nothing else is printed
    and the exit status is 0. *)
Theorem missing_accountID_continues (w : World) :
  flag_String w "accountID" "" = "" →
  text (WPrintln [VString "Missing required argument: accountID"])
  = "Missing required argument: accountID" +:+ newline
  ∧ (∃ rest, Stdout (exec w).1
             = WPrintln [VString "Missing required argument: accountID"] :: rest)
  ∧ (∀ err, http_Get w "https://prism.gutools.co.uk/vpcs" = Failed err →
       Stderr (exec w).1 = [fatal_line w "GET from PRISM failed" err])
  ∧ (∀ resp data prismResponse,
       http_Get w "https://prism.gutools.co.uk/vpcs" = Ok resp →
       Body resp = Ok data →
       json_Unmarshal w data = Ok prismResponse →
       Forall (λ vpc, VPC.AccountID vpc ≠ "") (VPCs (Data prismResponse)) →
       Filter (VPCs (Data prismResponse)) (sameAccount "") = []
       ∧ exec w = ({| Stdout := [WPrintln [VString "Missing required argument: accountID"]];
                      Stderr := [] |}, 0)).
Proof.
  intros Hflag. split_and!.
  - reflexivity.
  - rewrite exec_run, main_run. cbv zeta. rewrite Hflag.
    destruct (http_Get w _) as [resp|err]; [|by eexists].
    destruct (Body resp) as [data|err]; [|by eexists].
    destruct (json_Unmarshal w data) as [prismResponse|err]; by eexists.
  - intros err Hget. rewrite exec_run, main_run. cbv zeta. by rewrite Hget.
  - intros resp data prismResponse Hget Hbody Hjson Hids.
    assert (Filter (VPCs (Data prismResponse)) (sameAccount "") = []) as Hnone.
    { rewrite (Filter_filter _ _ (sameAccount_spec "")).
      induction Hids as [|vpc vpcs Hid _ IH]; [done|].
      by rewrite filter_cons_False. }
    split; [done|].
    rewrite exec_run, main_run. cbv zeta. rewrite Hflag, Hget, Hbody, Hjson.
    unfold accountVPCs. rewrite Hnone. reflexivity.
Qed.

Lemma missing_accountID_continues_witness :
  exec (sample_world None)
  = ({| Stdout := [WPrintln [VString "Missing required argument: accountID"]];
        Stderr := [] |}, 0).
Proof.
  destruct (missing_accountID_continues (sample_world None) eq_refl)
    as (_ & _ & _ & Hrun).
  refine (proj2 (Hrun {| Body := Ok [] |} [] sample_inventory eq_refl eq_refl eq_refl _)).
  repeat constructor; discriminate.
Defined.

(** C8: when the fetched bytes do not decode, the program exits with
    status 1, its only line on standard error is the logger's header,
    "unable to unmarshal: " and the text of the decoding error, and
    standard output holds nothing but the warning about a missing account
    identifier, if that was due. *)
Theorem decode_failure_fatal (w : World) (resp : Response)
    (data : list Byte.byte) (err : error) :
  http_Get w "https://prism.gutools.co.uk/vpcs" = Ok resp →
  Body resp = Ok data →
  json_Unmarshal w data = Failed err →
  (exec w).2 = 1
  ∧ (∃ tail, (tail = "" ∨ tail = newline)
       ∧ Stderr (exec w).1
         = [log_header w +:+ "unable to unmarshal" +:+ ": " +:+ Error err +:+ tail])
  ∧ Stdout (exec w).1
    = (if decide (flag_String w "accountID" "" = "")
       then [WPrintln [VString "Missing required argument: accountID"]]
       else [])
  ∧ (∀ wr, wr ∈ Stdout (exec w).1 →
       wr = WPrintln [VString "Missing required argument: accountID"]).
Proof.
  intros Hget Hbody Hjson.
  rewrite exec_run, main_run. cbv zeta. rewrite Hget, Hbody, Hjson.
  cbn [fst snd Stdout Stderr]. split_and!.
  - done.
  - unfold fatal_line.
    exists (if ends_with_newline ("unable to unmarshal" +:+ ": " +:+ Error err)
            then "" else newline).
    split; [by destruct (ends_with_newline _); auto|].
    by rewrite !string_app_assoc.
  - done.
  - intros wr. unfold warning_writes. case_decide.
    + by intros ->%list_elem_of_singleton.
    + by intros ?%elem_of_nil.
Qed.

Lemma decode_failure_fatal_witness :
  (exec (undecodable_world None)).2 = 1
  ∧ Stdout (exec (undecodable_world None)).1
    = [WPrintln [VString "Missing required argument: accountID"]].
Proof.
  destruct (decode_failure_fatal (undecodable_world None) {| Body := Ok [Byte.x7b] |}
              [Byte.x7b] (errors_New "unexpected end of JSON input")
              eq_refl eq_refl eq_refl)
    as (Hstatus & _ & Hout & _).
  split; [exact Hstatus | exact Hout].
Defined.

(** C10: every header "Failed: <id> (<region>)" on standard output is
    printed for a VPC of the audited account that has at least one
    violation, hence a VPC of region "eu-west-1": the header reads
    "Failed: <id> (eu-west-1)". *)
Theorem failed_header_region (w : World) (args : list value) :
  WPrintf ("Failed: %s (%s)" +:+ newline) args ∈ Stdout (exec w).1 →
  ∃ vpc,
    VPC.AccountID vpc = flag_String w "accountID" ""
    ∧ checkCompliance vpc ≠ []
    ∧ region vpc = "eu-west-1"
    ∧ args = [VString (VPC.VPCID vpc); VString "eu-west-1"]
    ∧ text (WPrintf ("Failed: %s (%s)" +:+ newline) args)
      = "Failed: " +:+ VPC.VPCID vpc +:+ " (eu-west-1)" +:+ newline.
Proof.
  rewrite exec_run, main_run. cbv zeta.
  set (accountID := flag_String w "accountID" "").
  assert (∀ wr, wr ∈ warning_writes accountID →
            wr = WPrintln [VString "Missing required argument: accountID"]) as Hwarn.
  { intros wr. unfold warning_writes. case_decide.
    - by intros ->%list_elem_of_singleton.
    - by intros ?%elem_of_nil. }
  destruct (http_Get w _) as [resp|err]; [|by intros ?%Hwarn].
  destruct (Body resp) as [data|err]; [|by intros ?%Hwarn].
  destruct (json_Unmarshal w data) as [prismResponse|err]; [|by intros ?%Hwarn].
  cbn [fst Stdout]. rewrite !elem_of_app. intros [Hin|[Hin|Hin]].
  - by apply Hwarn in Hin.
  - apply list_elem_of_bind in Hin as (vpc & Hin & _).
    unfold audit_writes in Hin. case_decide as Hvpc; [|by apply elem_of_nil in Hin].
    destruct Hvpc as [Hacc Herrs].
    pose proof (checkCompliance_nonempty_region vpc Herrs) as Hregion.
    unfold failed_block in Hin.
    apply elem_of_cons in Hin as [Hin|Hin].
    + exists vpc. injection Hin as ->. rewrite Hregion. by split_and!.
    + apply elem_of_app in Hin as [Hin|Hin].
      * apply list_elem_of_fmap in Hin as (e & Hin & _). discriminate Hin.
      * apply list_elem_of_singleton in Hin. discriminate Hin.
  - unfold ignored_writes in Hin.
    destruct (nonEuWest1 _) as [|vpc vpcs]; [by apply elem_of_nil in Hin|].
    apply elem_of_cons in Hin as [Hin|Hin]; [discriminate Hin|].
    apply list_elem_of_fmap in Hin as (e & Hin & _). discriminate Hin.
Qed.

Lemma failed_header_region_witness :
  ∃ vpc, VPC.AccountID vpc = "111"
    ∧ [VString "vpc-2"; VString "eu-west-1"] = [VString (VPC.VPCID vpc); VString "eu-west-1"].
Proof.
  destruct (failed_header_region (sample_world (Some "111"))
              [VString "vpc-2"; VString "eu-west-1"])
    as (vpc & Hacc & _ & _ & Hargs & _).
  - vm_compute. apply list_elem_of_here.
  - exists vpc. split; [exact Hacc | exact Hargs].
Defined.

(** ** More on the generic filter *)

Section FilterAny.
Context {A : Type}.
Implicit Types (items : list A) (pred : A → bool).

Lemma Filter_bool items pred :
  Filter items pred = filter (λ x, pred x = true) items.
Proof. by apply Filter_filter. Qed.

(** X1: for any predicate, [Filter] returns the items that satisfy it and
    no other, in the order they have in the input. *)
Theorem Filter_keeps_matching items pred :
  Filter items pred = filter (λ x, pred x = true) items
  ∧ sublist (Filter items pred) items
  ∧ (∀ x, x ∈ Filter items pred ↔ x ∈ items ∧ pred x = true).
Proof.
  rewrite Filter_bool. split_and!.
  - done.
  - apply sublist_filter.
  - intros x. rewrite list_elem_of_filter. tauto.
Qed.

(** X2: filtering twice is filtering once by the conjunction of the two
    predicates, so the order of two filters does not matter. *)
Theorem Filter_twice items (p q : A → bool) :
  Filter (Filter items p) q = Filter items (λ x, p x && q x)
  ∧ Filter (Filter items p) q = Filter (Filter items q) p.
Proof.
  rewrite !Filter_bool, !list_filter_filter. split.
  - apply list_filter_iff. intros x. rewrite andb_true_iff. tauto.
  - apply list_filter_iff. intros x. tauto.
Qed.

(** X3: filtering a concatenation is concatenating the filtered parts. *)
Theorem Filter_concat (items1 items2 : list A) pred :
  Filter (items1 ++ items2) pred = Filter items1 pred ++ Filter items2 pred.
Proof. rewrite !Filter_bool. apply filter_app. Qed.

Lemma filter_id_iff (P : A → Prop) `{!∀ x, Decision (P x)} items :
  filter P items = items ↔ Forall P items.
Proof.
  induction items as [|x items IH].
  - split; [constructor | done].
  - rewrite filter_cons, Forall_cons. case_decide as HP.
    + split.
      * intros [= Heq]. split; [done | by apply IH].
      * intros [_ Hall]. f_equal. by apply IH.
    + split; [|tauto]. intros Heq.
      pose proof (length_filter P items) as Hlen. rewrite Heq in Hlen.
      cbn in Hlen. lia.
Qed.

Lemma filter_nil_iff (P : A → Prop) `{!∀ x, Decision (P x)} items :
  filter P items = [] ↔ Forall (λ x, ¬ P x) items.
Proof.
  induction items as [|x items IH].
  - split; [constructor | done].
  - rewrite filter_cons, Forall_cons. case_decide as HP.
    + split; [done | tauto].
    + rewrite IH. tauto.
Qed.

(** X4: [Filter] never returns more items than it is given; it returns
    its input unchanged exactly when every item satisfies the predicate,
    and nothing exactly when no item does. *)
Theorem Filter_bounds items pred :
  len (Filter items pred) ≤ len items
  ∧ (Filter items pred = items ↔ ∀ x, x ∈ items → pred x = true)
  ∧ (Filter items pred = [] ↔ ∀ x, x ∈ items → pred x = false).
Proof.
  rewrite Filter_bool. split_and!.
  - unfold len. apply inj_le, length_filter.
  - by rewrite filter_id_iff, Forall_forall.
  - rewrite filter_nil_iff, Forall_forall.
    split; intros H x Hx; specialize (H x Hx); by destruct (pred x).
Qed.

End FilterAny.

(** ** More on the compliance evaluator *)

Lemma subnet_count_total (subnets : list PrismSubnet) :
  (subnet_count true subnets + subnet_count false subnets = length subnets)%nat.
Proof.
  unfold subnet_count. induction subnets as [|subnet subnets IH]; [done|].
  rewrite !filter_cons. destruct (Subnet.IsPublic subnet);
    repeat case_decide; try done; cbn [length]; lia.
Qed.

Lemma checkCompliance_default_shape (vpc : PrismVPC) :
  region vpc = "eu-west-1" → VPC.IsDefault vpc = true →
  checkCompliance vpc = [errors_New "is Default VPC"].
Proof. intros Hregion Hdefault. unfold checkCompliance. by rewrite Hregion, Hdefault. Qed.

Lemma checkCompliance_outside (vpc : PrismVPC) :
  region vpc ≠ "eu-west-1" → checkCompliance vpc = [].
Proof.
  intros Hregion. destruct (checkCompliance vpc) eqn:Herrs; [done|].
  destruct Hregion. apply checkCompliance_nonempty_region. by rewrite Herrs.
Qed.

(** X5: a VPC has no violation exactly when it lies outside "eu-west-1",
    or is not a default VPC and has three public and three private
    subnets. *)
Theorem checkCompliance_compliant_iff (vpc : PrismVPC) :
  checkCompliance vpc = []
  ↔ region vpc ≠ "eu-west-1"
    ∨ (VPC.IsDefault vpc = false
       ∧ subnet_count true (VPC.Subnets vpc) = 3%nat
       ∧ subnet_count false (VPC.Subnets vpc) = 3%nat).
Proof.
  destruct (decide (region vpc = "eu-west-1")) as [Hregion|Hregion].
  - destruct (VPC.IsDefault vpc) eqn:Hdefault.
    + rewrite (checkCompliance_default_shape vpc Hregion Hdefault).
      split; [done | intros [?|[? _]]; done].
    + rewrite (checkCompliance_subnets vpc Hregion Hdefault).
      repeat case_decide; cbn; split; try done; try tauto;
        intros [?|(_ & ? & ?)]; done.
  - rewrite (checkCompliance_outside vpc Hregion). split; [by left | done].
Qed.

(** X6: the violations of a VPC depend only on its region, its default
    flag and its numbers of public and private subnets: two VPCs that
    agree on these get the same violations, whatever their ids, accounts,
    states, tags and the other fields and the order of their subnets. *)
Theorem checkCompliance_depends_on (vpc1 vpc2 : PrismVPC) :
  region vpc1 = region vpc2 →
  VPC.IsDefault vpc1 = VPC.IsDefault vpc2 →
  subnet_count true (VPC.Subnets vpc1) = subnet_count true (VPC.Subnets vpc2) →
  subnet_count false (VPC.Subnets vpc1) = subnet_count false (VPC.Subnets vpc2) →
  checkCompliance vpc1 = checkCompliance vpc2.
Proof.
  intros Hregion Hdefault Hpublic Hprivate.
  destruct (decide (region vpc1 = "eu-west-1")) as [Hin|Hout].
  - assert (region vpc2 = "eu-west-1") as Hin2 by congruence.
    destruct (VPC.IsDefault vpc1) eqn:Hd1.
    + rewrite (checkCompliance_default_shape vpc1), (checkCompliance_default_shape vpc2);
        done.
    + rewrite (checkCompliance_subnets vpc1), (checkCompliance_subnets vpc2) by done.
      by rewrite Hpublic, Hprivate.
  - rewrite (checkCompliance_outside vpc1), (checkCompliance_outside vpc2);
      [done | congruence | done].
Qed.

Lemma checkCompliance_depends_on_witness :
  checkCompliance
    (sample_vpc "vpc-7" "222" "eu-west-1" false
       [sample_subnet false; sample_subnet false; sample_subnet false;
        sample_subnet true; sample_subnet true])
  = checkCompliance vpc_3.
Proof. apply checkCompliance_depends_on; reflexivity. Defined.

(** X7: a VPC of "eu-west-1" that is not a default VPC and does not have
    six subnets in all has at least one violation. *)
Theorem checkCompliance_needs_six (vpc : PrismVPC) :
  region vpc = "eu-west-1" →
  VPC.IsDefault vpc = false →
  length (VPC.Subnets vpc) ≠ 6%nat →
  checkCompliance vpc ≠ [].
Proof.
  intros Hregion Hdefault Hsix.
  rewrite (checkCompliance_subnets vpc Hregion Hdefault).
  pose proof (subnet_count_total (VPC.Subnets vpc)) as Htotal.
  repeat case_decide; try done. lia.
Qed.

Lemma checkCompliance_needs_six_witness : checkCompliance vpc_3 ≠ [].
Proof. apply checkCompliance_needs_six; [reflexivity | reflexivity |]. vm_compute. lia. Defined.

(** X8: a VPC of "eu-west-1" that is not a default VPC and has no subnet
    gets both violations, each reporting that 0 subnets were found. *)
Theorem checkCompliance_no_subnets (vpc : PrismVPC) :
  region vpc = "eu-west-1" →
  VPC.IsDefault vpc = false →
  VPC.Subnets vpc = [] →
  checkCompliance vpc
  = [errors_New "expected 3 public subnets, found 0";
     errors_New "expected 3 private subnets, found 0"].
Proof.
  intros Hregion Hdefault Hnone.
  rewrite (checkCompliance_subnets vpc Hregion Hdefault), Hnone. reflexivity.
Qed.

Lemma checkCompliance_no_subnets_witness :
  checkCompliance (sample_vpc "vpc-8" "111" "eu-west-1" false [])
  = [errors_New "expected 3 public subnets, found 0";
     errors_New "expected 3 private subnets, found 0"].
Proof. apply checkCompliance_no_subnets; reflexivity. Defined.

(** ** More on the reporter *)

Lemma output_app (ws1 ws2 : list write) :
  output (ws1 ++ ws2) = output ws1 +:+ output ws2.
Proof.
  unfold output. induction ws1 as [|w ws1 IH]; [done|].
  cbn [app foldr]. by rewrite IH, string_app_assoc.
Qed.

Lemma text_failed_header (id reg : string) :
  Sprintf ("Failed: %s (%s)" +:+ newline) [VString id; VString reg]
  = "Failed: " +:+ id +:+ " (" +:+ reg +:+ ")" +:+ newline.
Proof. reflexivity. Qed.

Lemma text_reason (err : error) :
  Sprintf (String "009" "%s" +:+ newline) [VError err]
  = String "009" (Error err +:+ newline).
Proof. reflexivity. Qed.

(** X9: [reportCompliance] always returns, leaves standard error alone and
    adds to standard output one write for the header, one per violation
    and one for the closing line; their bytes are "Failed: <id>
    (<region>)", then each reason after a tab, each on a line, in order,
    then an empty line. *)
Theorem reportCompliance_prints (vpc : PrismVPC) (errors : list error) (c : Console) :
  ∃ ws,
    reportCompliance vpc errors c
    = ({| Stdout := Stdout c ++ ws; Stderr := Stderr c |}, Done tt)
    ∧ length ws = (2 + length errors)%nat
    ∧ output ws
      = ("Failed: " +:+ VPC.VPCID vpc +:+ " (" +:+ region vpc +:+ ")" +:+ newline)
        +:+ foldr (λ err rest, String "009" (Error err +:+ newline) +:+ rest) "" errors
        +:+ newline.
Proof.
  exists (failed_block vpc errors). split_and!.
  - apply emits_reportCompliance.
  - unfold failed_block. cbn [length]. rewrite length_app, length_fmap. cbn. lia.
  - unfold failed_block.
    change (?w :: ?l ++ ?r) with ([w] ++ l ++ r). rewrite !output_app.
    f_equal; [|f_equal].
    + unfold output. cbn [foldr text]. rewrite string_app_empty_r.
      apply text_failed_header.
    + induction errors as [|err errors IH]; [done|].
      rewrite fmap_cons. cbn [foldr]. rewrite <- IH. reflexivity.
Qed.

(** ** More on the program *)

Lemma fatal_line_shape (w : World) (msg : string) (err : error) :
  ∃ tail, (tail = "" ∨ tail = newline)
    ∧ fatal_line w msg err = log_header w +:+ msg +:+ ": " +:+ Error err +:+ tail.
Proof.
  unfold fatal_line.
  exists (if ends_with_newline (msg +:+ ": " +:+ Error err) then "" else newline).
  split; [by destruct (ends_with_newline _); auto|].
  by rewrite !string_app_assoc.
Qed.

Lemma warning_writes_cases (accountID : string) :
  warning_writes accountID = if decide (accountID = "") then [warning] else [].
Proof. reflexivity. Qed.

(** X10: when the GET fails, the program exits with status 1; its only
    line on standard error is the logger's header, "GET from PRISM
    failed: " and the text of the error; standard output holds the
    warning about a missing account id, if due, and nothing else. *)
Theorem fetch_failure_fatal (w : World) (err : error) :
  http_Get w "https://prism.gutools.co.uk/vpcs" = Failed err →
  (exec w).2 = 1
  ∧ (∃ tail, (tail = "" ∨ tail = newline)
       ∧ Stderr (exec w).1
         = [log_header w +:+ "GET from PRISM failed" +:+ ": " +:+ Error err +:+ tail])
  ∧ Stdout (exec w).1
    = (if decide (flag_String w "accountID" "" = "") then [warning] else []).
Proof.
  intros Hget. rewrite exec_run, main_run. cbv zeta. rewrite Hget.
  cbn [fst snd Stdout Stderr]. split_and!; [done| |done].
  destruct (fatal_line_shape w "GET from PRISM failed" err) as (tail & Htail & ->).
  by exists tail.
Qed.

Lemma fetch_failure_fatal_witness :
  (exec {| arg_accountID := Some "111";
           http_Get := fun _ => Failed (errors_New "dial tcp: no route to host");
           json_Unmarshal := fun _ => Ok sample_inventory;
           log_header := "2024/01/02 03:04:05 " |}).2 = 1.
Proof.
  refine (proj1 (fetch_failure_fatal _ (errors_New "dial tcp: no route to host") _)).
  reflexivity.
Defined.

(** X11: when the body of the response cannot be read to its end, the
    program exits with status 1; its only line on standard error is the
    logger's header, "unable to read prism response body: " and the text
    of the error; standard output holds the warning about a missing
    account id, if due, and nothing else. *)
Theorem read_failure_fatal (w : World) (resp : Response) (err : error) :
  http_Get w "https://prism.gutools.co.uk/vpcs" = Ok resp →
  Body resp = Failed err →
  (exec w).2 = 1
  ∧ (∃ tail, (tail = "" ∨ tail = newline)
       ∧ Stderr (exec w).1
         = [log_header w +:+ "unable to read prism response body" +:+ ": "
            +:+ Error err +:+ tail])
  ∧ Stdout (exec w).1
    = (if decide (flag_String w "accountID" "" = "") then [warning] else []).
Proof.
  intros Hget Hbody. rewrite exec_run, main_run. cbv zeta. rewrite Hget, Hbody.
  cbn [fst snd Stdout Stderr]. split_and!; [done| |done].
  destruct (fatal_line_shape w "unable to read prism response body" err)
    as (tail & Htail & ->).
  by exists tail.
Qed.

Lemma read_failure_fatal_witness :
  (exec {| arg_accountID := None;
           http_Get := fun _ => Ok {| Body := Failed (errors_New "unexpected EOF") |};
           json_Unmarshal := fun _ => Ok sample_inventory;
           log_header := "2024/01/02 03:04:05 " |}).2 = 1.
Proof.
  refine (proj1 (read_failure_fatal _ {| Body := Failed (errors_New "unexpected EOF") |}
                   (errors_New "unexpected EOF") _ _)); reflexivity.
Defined.


Lemma main_success (w : World) (resp : Response) (data : list Byte.byte)
    (prismResponse : PrismResponse) :
  http_Get w "https://prism.gutools.co.uk/vpcs" = Ok resp →
  Body resp = Ok data →
  json_Unmarshal w data = Ok prismResponse →
  exec w
  = ({| Stdout := warning_writes (flag_String w "accountID" "")
          ++ (accountVPCs (flag_String w "accountID" "") prismResponse
                ≫= audit_writes (flag_String w "accountID" ""))
          ++ ignored_writes
               (nonEuWest1 (accountVPCs (flag_String w "accountID" "") prismResponse));
        Stderr := [] |}, 0).
Proof.
  intros Hget Hbody Hjson. rewrite exec_run, main_run. cbv zeta.
  by rewrite Hget, Hbody, Hjson.
Qed.

(** X13: the VPCs of other accounts play no role. Two runs with the same
    account id whose inventories hold the same VPCs of that account, in the
    same order, write the same and end with the same status. *)
Theorem other_accounts_ignored (w1 w2 : World) (resp1 resp2 : Response)
    (data1 data2 : list Byte.byte) (inventory1 inventory2 : PrismResponse) :
  flag_String w1 "accountID" "" = flag_String w2 "accountID" "" →
  http_Get w1 "https://prism.gutools.co.uk/vpcs" = Ok resp1 →
  Body resp1 = Ok data1 →
  json_Unmarshal w1 data1 = Ok inventory1 →
  http_Get w2 "https://prism.gutools.co.uk/vpcs" = Ok resp2 →
  Body resp2 = Ok data2 →
  json_Unmarshal w2 data2 = Ok inventory2 →
  Filter (VPCs (Data inventory1)) (sameAccount (flag_String w1 "accountID" ""))
  = Filter (VPCs (Data inventory2)) (sameAccount (flag_String w1 "accountID" "")) →
  exec w1 = exec w2.
Proof.
  intros Hflag Hget1 Hbody1 Hjson1 Hget2 Hbody2 Hjson2 Hsame.
  rewrite (main_success w1 resp1 data1 inventory1) by done.
  rewrite (main_success w2 resp2 data2 inventory2) by done.
  unfold accountVPCs. by rewrite <- Hflag, Hsame.
Qed.

Lemma other_accounts_ignored_witness :
  exec (sample_world (Some "111"))
  = exec {| arg_accountID := Some "111";
            http_Get := fun _ => Ok {| Body := Ok [Byte.x7b; Byte.x7d] |};
            json_Unmarshal := fun _ =>
              Ok {| Data := {| VPCs := [vpc_1; vpc_2; vpc_3; vpc_4] |} |};
            log_header := "" |}.
Proof.
  apply (other_accounts_ignored _ _ {| Body := Ok [] |}
           {| Body := Ok [Byte.x7b; Byte.x7d] |} [] [Byte.x7b; Byte.x7d]
           sample_inventory {| Data := {| VPCs := [vpc_1; vpc_2; vpc_3; vpc_4] |} |});
    reflexivity.
Defined.




(** X15: the test on the account id at the head of the loop never skips a
    VPC: every VPC the loop runs over has the account id asked for, so its
    round is the evaluation followed by the report when there is a
    violation. *)
Theorem loop_guard_never_skips (accountID : string) (prismResponse : PrismResponse)
    (vpc : PrismVPC) :
  vpc ∈ accountVPCs accountID prismResponse →
  negb (VPC.AccountID vpc =? accountID)%string = false
  ∧ audit accountID vpc
    = (if 0 <? len (checkCompliance vpc)
       then reportCompliance vpc (checkCompliance vpc)
       else ret tt).
Proof.
  rewrite accountVPCs_filter, list_elem_of_filter. intros [Hacc _].
  apply String.eqb_eq in Hacc. unfold audit. by rewrite Hacc.
Qed.

Lemma loop_guard_never_skips_witness :
  negb (VPC.AccountID vpc_2 =? "111")%string = false.
Proof.
  refine (proj1 (loop_guard_never_skips "111" sample_inventory vpc_2 _)).
  vm_compute. apply list_elem_of_further, list_elem_of_here.
Defined.

Lemma checkCompliance_nil_in_region (vpc : PrismVPC) :
  region vpc = "eu-west-1" →
  checkCompliance vpc = []
  ↔ VPC.IsDefault vpc = false
    ∧ subnet_count true (VPC.Subnets vpc) = 3%nat
    ∧ subnet_count false (VPC.Subnets vpc) = 3%nat.
Proof.
  intros Hregion. destruct (VPC.IsDefault vpc) eqn:Hdefault.
  - rewrite (checkCompliance_default_shape vpc Hregion Hdefault).
    split; [done | intros [? _]; done].
  - rewrite (checkCompliance_subnets vpc Hregion Hdefault).
    repeat case_decide; cbn; split; try done; intros (_ & ? & ?); done.
Qed.

Lemma bind_nil_iff {A B} (f : A → list B) (l : list A) :
  l ≫= f = [] ↔ Forall (λ x, f x = []) l.
Proof.
  induction l as [|x l IH].
  - split; [constructor | done].
  - rewrite bind_cons, Forall_cons, <- IH. apply app_nil.
Qed.

Lemma audit_writes_nil_iff (vpc : PrismVPC) :
  audit_writes (VPC.AccountID vpc) vpc = [] ↔ checkCompliance vpc = [].
Proof.
  unfold audit_writes, failed_block. case_decide as Hvpc.
  - split; [done|]. intros Hnil. by destruct Hvpc.
  - split; [|done]. intros _.
    destruct (decide (checkCompliance vpc = [])) as [Hnil|Hnil]; [done|].
    destruct Hvpc. done.
Qed.

Lemma ignored_writes_nil_iff (vpcs : list PrismVPC) :
  ignored_writes vpcs = [] ↔ vpcs = [].
Proof. by destruct vpcs. Qed.

(** X16: on a run that fetches and decodes the inventory, nothing is
    written besides the warning about a missing account id (if due)
    exactly when every VPC of the account is in "eu-west-1", is not a
    default VPC and has three public and three private subnets. *)
Theorem silent_iff_compliant (w : World) (resp : Response)
    (data : list Byte.byte) (prismResponse : PrismResponse) :
  http_Get w "https://prism.gutools.co.uk/vpcs" = Ok resp →
  Body resp = Ok data →
  json_Unmarshal w data = Ok prismResponse →
  Stdout (exec w).1 = (if decide (flag_String w "accountID" "" = "") then [warning] else [])
  ↔ Forall (λ vpc, region vpc = "eu-west-1"
                   ∧ VPC.IsDefault vpc = false
                   ∧ subnet_count true (VPC.Subnets vpc) = 3%nat
                   ∧ subnet_count false (VPC.Subnets vpc) = 3%nat)
      (Filter (VPCs (Data prismResponse)) (sameAccount (flag_String w "accountID" ""))).
Proof.
  intros Hget Hbody Hjson.
  rewrite (main_success w resp data prismResponse) by done.
  cbn [fst Stdout]. rewrite <- warning_writes_cases.
  set (accountID := flag_String w "accountID" "").
  fold (accountVPCs accountID prismResponse).
  assert (∀ vpc, vpc ∈ accountVPCs accountID prismResponse →
            VPC.AccountID vpc = accountID) as Hacc.
  { intros vpc. rewrite accountVPCs_filter, list_elem_of_filter. tauto. }
  generalize dependent (accountVPCs accountID prismResponse). intros vpcs Hacc.
  rewrite <- (app_nil_r (warning_writes accountID)) at 2.
  split.
  - intros [Hblocks Hignored]%app_inv_head%app_nil.
    apply bind_nil_iff in Hblocks. apply ignored_writes_nil_iff in Hignored.
    rewrite nonEuWest1_filter in Hignored. apply filter_nil_iff in Hignored.
    rewrite Forall_forall in *. intros vpc Hin.
    assert (region vpc = "eu-west-1") as Hregion.
    { destruct (decide (region vpc = "eu-west-1")) as [|Hout]; [done|].
      by destruct (Hignored vpc Hin). }
    split; [done|]. apply checkCompliance_nil_in_region; [done|].
    apply audit_writes_nil_iff. rewrite (Hacc vpc Hin). by apply Hblocks.
  - intros Hall. f_equal. apply app_nil. split.
    + apply bind_nil_iff. rewrite Forall_forall in *. intros vpc Hin.
      rewrite <- (Hacc vpc Hin). apply audit_writes_nil_iff.
      destruct (Hall vpc Hin) as [Hregion Hrest].
      by apply checkCompliance_nil_in_region.
    + apply ignored_writes_nil_iff. rewrite nonEuWest1_filter.
      apply filter_nil_iff. rewrite Forall_forall in *. intros vpc Hin Hout.
      by destruct (Hall vpc Hin).
Qed.

Lemma silent_iff_compliant_witness :
  Stdout (exec {| arg_accountID := Some "111";
                  http_Get := fun _ => Ok {| Body := Ok [] |};
                  json_Unmarshal := fun _ => Ok {| Data := {| VPCs := [vpc_1; vpc_other] |} |};
                  log_header := "" |}).1 = [].
Proof.
  match goal with
  | |- Stdout (exec ?w).1 = _ =>
      refine (proj2 (silent_iff_compliant w {| Body := Ok [] |} []
                       {| Data := {| VPCs := [vpc_1; vpc_other] |} |}
                       eq_refl eq_refl eq_refl) _)
  end.
  vm_compute. repeat constructor.
Defined.

Lemma header_id_reasons (errors : list error) :
  omap header_id
    ((λ err, WPrintf (String "009" "%s" +:+ newline) [VError err]) <$> errors) = [].
Proof. induction errors as [|err errors IH]; [done|]. by rewrite fmap_cons. Qed.

Lemma header_id_failed_block (vpc : PrismVPC) (errors : list error) :
  omap header_id (failed_block vpc errors) = [VPC.VPCID vpc].
Proof.
  unfold failed_block.
  change (?wr :: ?l ++ ?r) with ([wr] ++ l ++ r).
  rewrite !omap_app, header_id_reasons. cbn [omap list_omap header_id].
  by rewrite decide_True.
Qed.

Lemma header_id_ignored (vpcs : list PrismVPC) :
  omap header_id (ignored_writes vpcs) = [].
Proof.
  unfold ignored_writes. destruct vpcs as [|vpc vpcs]; [done|].
  generalize (vpc :: vpcs). intros l. cbn [omap list_omap header_id].
  induction l as [|x l IH]; [done|].
  rewrite fmap_cons. cbn [omap list_omap header_id].
  rewrite decide_False by discriminate. exact IH.
Qed.

Lemma header_id_blocks (accountID : string) (vpcs : list PrismVPC) :
  Forall (λ vpc, VPC.AccountID vpc = accountID) vpcs →
  omap header_id (vpcs ≫= audit_writes accountID)
  = VPC.VPCID <$> filter (λ vpc, checkCompliance vpc ≠ []) vpcs.
Proof.
  induction 1 as [|vpc vpcs Hacc _ IH]; [done|].
  rewrite bind_cons, omap_app, IH, filter_cons. unfold audit_writes.
  destruct (decide (checkCompliance vpc = [])) as [Hnil|Hnil].
  - rewrite decide_False by (by intros [_ ?]).
    by rewrite (decide_False (P := checkCompliance vpc ≠ [])) by (by intros ?).
  - rewrite decide_True by done. rewrite header_id_failed_block.
    by rewrite (decide_True (P := checkCompliance vpc ≠ [])) by done.
Qed.

(** X17: on a run that fetches and decodes the inventory, the header
    lines "Failed: ..." on standard output are one for each VPC of the
    account that has a violation, with its id, in the order of the
    inventory. *)
Theorem failed_headers_in_order (w : World) (resp : Response)
    (data : list Byte.byte) (prismResponse : PrismResponse) :
  http_Get w "https://prism.gutools.co.uk/vpcs" = Ok resp →
  Body resp = Ok data →
  json_Unmarshal w data = Ok prismResponse →
  omap header_id (Stdout (exec w).1)
  = VPC.VPCID
    <$> filter (λ vpc, checkCompliance vpc ≠ [])
          (Filter (VPCs (Data prismResponse)) (sameAccount (flag_String w "accountID" ""))).
Proof.
  intros Hget Hbody Hjson.
  rewrite (main_success w resp data prismResponse) by done.
  cbn [fst Stdout]. rewrite !omap_app, header_id_ignored, app_nil_r.
  rewrite header_id_blocks.
  - rewrite warning_writes_cases. by case_decide.
  - rewrite accountVPCs_filter, Forall_forall. intros vpc.
    rewrite list_elem_of_filter. tauto.
Qed.

Lemma failed_headers_in_order_witness :
  omap header_id (Stdout (exec (sample_world (Some "111"))).1) = ["vpc-2"; "vpc-3"].
Proof.
  rewrite (failed_headers_in_order (sample_world (Some "111")) {| Body := Ok [] |} []
             sample_inventory eq_refl eq_refl eq_refl).
  vm_compute. reflexivity.
Defined.
